(** * The StableHLO quantize pass and the XLA GPU dialect build declarations

    A shallow embedding of

    - [tensorflow/compiler/mlir/quantization/stablehlo/passes/quantize.cc]:
      the three rewrite-pattern structs, [QuantizePass::runOnOperation] and
      [DefaultQuantizationSpecs];
    - [third_party/xla/xla/service/gpu/fusions/mlir/ir/BUILD]: the rule
      invocations and their dependency edges.

    MLIR, LLVM's support library and the quantization headers are used by
    the pass but are not part of these two files.  What the pass calls in
    them is a [Variable] of the section [Pass]; the few library operations
    whose contract the pass relies on ([StringRef::contains], [cast<T>],
    the [Op] handle) are written out and documented where they are
    defined. *)

From Stdlib Require Import String Ascii List Bool Arith Lia.
Import ListNotations.
Open Scope list_scope.
Open Scope string_scope.

(** ** [llvm::StringRef]: the substring search behind [contains] *)

Module StringRef.

(** Modelled from the spec: [llvm::StringRef] is LLVM's and its source is
    not in the repository; the spec calls the test of line 95 "a simple
    name-substring check".  [StringRef::starts_with(Prefix)]: [Prefix] is an
    initial segment of the string. *)
Fixpoint starts_with (s prefix : string) {struct prefix} : bool :=
  match prefix with
  | EmptyString => true
  | String c prefix' =>
      match s with
      | EmptyString => false
      | String d s' => Ascii.eqb d c && starts_with s' prefix'
      end
  end.

(** [StringRef::find(Str, From)]: the index of the first occurrence of [Str]
    at or after the current position, [None] standing for [npos].  [pos]
    counts the characters already skipped. *)
Fixpoint find_from (pos : nat) (s str : string) : option nat :=
  if starts_with s str then Some pos
  else
    match s with
    | EmptyString => None
    | String _ s' => find_from (S pos) s' str
    end.

Definition find (s str : string) : option nat := find_from 0 s str.

(** [StringRef::contains(Other)] is [find(Other) != npos]. *)
Definition contains (s other : string) : bool :=
  match find s other with
  | Some _ => true
  | None => false
  end.

(** [other] occurs in [s]: the mathematical substring relation. *)
Definition occurs_in (other s : string) : Prop :=
  exists before after : string, s = before ++ other ++ after.

(** [starts_with] decides "is an initial segment of". *)
Lemma starts_with_iff (s prefix : string) :
  starts_with s prefix = true <-> exists rest : string, s = prefix ++ rest.
Proof.
  revert s; induction prefix as [|c prefix IH]; intros s; simpl.
  - split; [intros _; now exists s | reflexivity].
  - destruct s as [|d s].
    + split; [discriminate | intros [rest H]; discriminate H].
    + rewrite andb_true_iff, Ascii.eqb_eq, IH. split.
      * intros [-> [rest ->]]. now exists rest.
      * intros [rest H]. injection H as -> ->. split; [reflexivity | now exists rest].
Qed.

(** A position [find_from] returns is an occurrence. *)
Lemma find_from_sound (s str : string) :
  forall pos n : nat,
    find_from pos s str = Some n ->
    exists before after : string,
      s = before ++ str ++ after /\ n = pos + String.length before.
Proof.
  induction s as [|d s IH]; intros pos n; simpl.
  - destruct (starts_with "" str) eqn:E; [|discriminate].
    intros [= <-]. apply starts_with_iff in E as [rest E].
    exists "", rest. simpl. split; [exact E | lia].
  - destruct (starts_with (String d s) str) eqn:E.
    + intros [= <-]. apply starts_with_iff in E as [rest E].
      exists "", rest. simpl. split; [exact E | lia].
    + intros H. apply IH in H as (before & after & -> & ->).
      exists (String d before), after. simpl. split; [reflexivity | lia].
Qed.

(** [find_from] misses no occurrence. *)
Lemma find_from_complete (before str after : string) :
  forall pos : nat, find_from pos (before ++ str ++ after) str <> None.
Proof.
  induction before as [|d before IH]; intros pos.
  - simpl (_ ++ _).
    assert (E : starts_with (str ++ after) str = true)
      by (apply starts_with_iff; now exists after).
    destruct (str ++ after); simpl; simpl in E; rewrite E; discriminate.
  - simpl.
    destruct (starts_with (String d (before ++ str ++ after)) str);
      [discriminate | apply IH].
Qed.

(** [contains] decides the substring relation. *)
Lemma contains_iff (s other : string) :
  contains s other = true <-> occurs_in other s.
Proof.
  unfold contains, find, occurs_in. split.
  - destruct (find_from 0 s other) as [n|] eqn:E; [intros _ | discriminate].
    apply find_from_sound in E as (before & after & E & _).
    now exists before, after.
  - intros (before & after & ->).
    pose proof (find_from_complete before other after 0) as H.
    now destruct (find_from 0 (before ++ other ++ after) other).
Qed.

Lemma length_append (s t : string) :
  String.length (s ++ t) = String.length s + String.length t.
Proof.
  induction s as [|c s IH]; simpl; [reflexivity | now rewrite IH].
Qed.

Lemma append_assoc (s t u : string) : (s ++ t) ++ u = s ++ t ++ u.
Proof.
  induction s as [|c s IH]; simpl; [reflexivity | now rewrite IH].
Qed.

(** A string that contains another is at least as long. *)
Lemma contains_length (s other : string) :
  contains s other = true -> String.length other <= String.length s.
Proof.
  rewrite contains_iff. intros (before & after & ->).
  rewrite !length_append. lia.
Qed.

(** An occurrence survives when the string is extended on either side. *)
Lemma occurs_in_extend (other s before after : string) :
  occurs_in other s -> occurs_in other (before ++ s ++ after).
Proof.
  intros (b & a & ->). exists (before ++ b), (a ++ after).
  now rewrite !append_assoc.
Qed.

End StringRef.

(** ** [quantize.cc] *)

Module Quantize.

(** The operation classes [quantize.cc] names: [TF::XlaCallModuleOp],
    [quantfork::QuantizeCastOp] and [quantfork::DequantizeCastOp]. *)
Inductive OpClass : Type :=
| XlaCallModuleOp
| QuantizeCastOp
| DequantizeCastOp.

(** The three pattern structs of the file; each is the [ConcreteT] argument
    of its own [StableHloQuantizationBase] instantiation. *)
Inductive ConcreteT : Type :=
| StableHloQuantization
| StableHloQuantizationReverse
| StableHloQuantizationHybrid.

(** [mlir::LogicalResult] and [mlir::failed]. *)
Inductive LogicalResult : Type :=
| success
| failure.

Definition failed (r : LogicalResult) : bool :=
  match r with
  | failure => true
  | success => false
  end.

(** A diagnostic attached to the operation the pass runs on. *)
Inductive DiagnosticSeverity : Type :=
| Note
| Warning
| Error
| Remark.

Record Diagnostic : Type := {
  severity : DiagnosticSeverity;
  message : string
}.

Section Pass.

(** *** What the pass takes from MLIR and TensorFlow *)

(** [mlir::Operation], and [isa<T>(op)] for the classes above. *)
Variable Operation : Type.
Variable isa : OpClass -> Operation -> bool.

(** The IR under a [ModuleOp]. *)
Variable ModuleOp : Type.

(** [tensorflow::DataType] and its enumerator [DT_QINT8]. *)
Variable DataType : Type.
Variable DT_QINT8 : DataType.

(** Modelled from the spec: [mlir::Op<T>] is MLIR's.  An op handle wraps an
    [Operation*] that may be null; its conversion to [bool] tells whether it
    is not. *)
Record Op (T : OpClass) : Type := {
  state : option Operation
}.
Arguments state {T} _.

Definition Op_bool {T : OpClass} (o : Op T) : bool :=
  match state o with
  | Some _ => true
  | None => false
  end.

(** Modelled from the spec: [llvm::cast<T>] is LLVM's.  [cast<T>(op)]
    asserts [isa<T>(op)] and wraps [&op]; it has no null result.  [None] is
    the violated assertion: the call has no defined result there. *)
Definition cast (T : OpClass) (op : Operation) : option (Op T) :=
  if isa T op then Some {| state := Some op |} else None.

(** [GetEntryFunctionName] is declared in [attrs_and_constraints.h]. *)
Variable GetEntryFunctionName : Op XlaCallModuleOp -> string.

(** *** Configuration records *)

(** Modelled from the spec: [QuantizationSpecs] is declared in
    [quantization_config.h], outside the files verified here; the spec
    describes it as the record of the inference numeric type and the
    numeric-verification flags.  These are the fields [quantize.cc] reads or
    writes (lines 124, 125 and 155). *)
Record QuantizationSpecs : Type := {
  inference_type : DataType;
  verify_numeric : bool;
  whole_model_verify : bool
}.

(** The default-constructed record ([QuantizationSpecs quant_specs;]): its
    member initialisers are in the header. *)
Variable QuantizationSpecs_default : QuantizationSpecs.

(** Modelled from the spec: [NumericVerifySpec] and [QuantPassSpec] are
    declared in [quantization_utils.h], outside the files verified here.  The
    two fields of the first are those
    [runOnOperation] assigns (here with the prefix [nv_]); the second is
    brace-initialised from a [NumericVerifySpec] and a [QuantizationSpecs],
    in this order. *)
Record NumericVerifySpec : Type := {
  nv_verify_numeric : bool;
  nv_whole_model_verify : bool
}.

Record QuantPassSpec : Type := {
  numeric_verify_spec : NumericVerifySpec;
  quant_spec : QuantizationSpecs
}.

(** *** The pattern structs (lines 49-97) *)

(** [template <typename ConcreteT, typename RootOpT =
    quantfork::DequantizeCastOp> struct StableHloQuantizationBase]: the root
    operation is the second template argument when one is given. *)
Definition StableHloQuantizationBase_RootOpT (explicit : option OpClass) : OpClass :=
  match explicit with
  | Some root => root
  | None => DequantizeCastOp
  end.

Definition RootOpT (c : ConcreteT) : OpClass :=
  match c with
  | StableHloQuantization => StableHloQuantizationBase_RootOpT None
  | StableHloQuantizationReverse =>
      StableHloQuantizationBase_RootOpT (Some QuantizeCastOp)
  | StableHloQuantizationHybrid => StableHloQuantizationBase_RootOpT None
  end.

(** Line 62: [static bool AllowHybridQuantization(Operation& op) { return
    false; }]. *)
Definition StableHloQuantizationBase_AllowHybridQuantization
    (op : Operation) : bool :=
  false.

(** Lines 93-96.  [call_op && ...] short-circuits on a null handle. *)
Definition StableHloQuantizationHybrid_AllowHybridQuantization
    (op : Operation) : option bool :=
  match cast XlaCallModuleOp op with
  | None => None
  | Some call_op =>
      Some (Op_bool call_op
            && StringRef.contains (GetEntryFunctionName call_op) "dot_general")
  end.

(** [ConcreteT::AllowHybridQuantization]: a struct that declares the member
    hides the one it inherits from the base. *)
Definition AllowHybridQuantization (c : ConcreteT) (op : Operation)
    : option bool :=
  match c with
  | StableHloQuantizationHybrid =>
      StableHloQuantizationHybrid_AllowHybridQuantization op
  | StableHloQuantization | StableHloQuantizationReverse =>
      Some (StableHloQuantizationBase_AllowHybridQuantization op)
  end.

(** *** The pass (lines 99-149) *)

(** The members of a [QuantizePass]: the two options of the generated base
    class that the file reads, and [quant_specs_]. *)
Record QuantizePass : Type := {
  enable_per_channel_quantized_weight_ : bool;
  enable_weight_only_ : bool;
  quant_specs_ : QuantizationSpecs
}.

(** Lines 105-111: the explicit constructor. *)
Definition QuantizePass_new (enable_per_channel_quantized_weight : bool)
    (enable_weight_only : bool) (quant_specs : QuantizationSpecs)
    : QuantizePass :=
  {| enable_per_channel_quantized_weight_ := enable_per_channel_quantized_weight;
     enable_weight_only_ := enable_weight_only;
     quant_specs_ := quant_specs |}.

(** Modelled from the spec: [RewritePatternSet] is MLIR's, and the
    [Populate...] functions are declared in [quantization_patterns.h],
    outside the files verified here.  A pattern struct of this file is kept with
    the [QuantPassSpec] it was constructed with; what a [Populate...]
    function adds is one entry that names it, with its argument. *)
Inductive RewritePattern : Type :=
| QuantizationPattern (c : ConcreteT) (quant_params : QuantPassSpec)
| QuantizeHybridPatterns
| QuantizeOpWithRegionPattern
| FusedGemmStylePatterns (enable_per_channel_quantized_weight : bool)
| QuantizeSingularOpPatterns.

Definition RewritePatternSet : Type := list RewritePattern.

(** [patterns.add<Ts...>(&ctx, quant_params)]. *)
Definition add (cs : list ConcreteT) (quant_params : QuantPassSpec)
    (patterns : RewritePatternSet) : RewritePatternSet :=
  (patterns ++ map (fun c => QuantizationPattern c quant_params) cs)%list.

Definition PopulateQuantizeHybridPatterns (patterns : RewritePatternSet)
    : RewritePatternSet :=
  (patterns ++ [QuantizeHybridPatterns])%list.

Definition PopulateQuantizeOpWithRegionPattern (patterns : RewritePatternSet)
    : RewritePatternSet :=
  (patterns ++ [QuantizeOpWithRegionPattern])%list.

Definition PopulateFusedGemmStylePatterns (patterns : RewritePatternSet)
    (enable_per_channel_quantized_weight : bool) : RewritePatternSet :=
  (patterns ++ [FusedGemmStylePatterns enable_per_channel_quantized_weight])%list.

Definition PopulateQuantizeSingularOpPatterns (patterns : RewritePatternSet)
    : RewritePatternSet :=
  (patterns ++ [QuantizeSingularOpPatterns])%list.

(** The greedy driver of MLIR: the rewritten module and whether the
    rewriting converged. *)
Variable applyPatternsAndFoldGreedily :
  ModuleOp -> RewritePatternSet -> ModuleOp * LogicalResult.

(** What a pass can change while it runs: the IR under its root operation,
    the diagnostics emitted on that operation, and the failure flag that
    [signalPassFailure] raises. *)
Record PassState : Type := {
  root : ModuleOp;
  diagnostics : list Diagnostic;
  pass_failed : bool
}.

Definition PassM (A : Type) : Type := PassState -> A * PassState.

Definition ret {A : Type} (a : A) : PassM A := fun s => (a, s).

Definition bind {A B : Type} (m : PassM A) (k : A -> PassM B) : PassM B :=
  fun s => let (a, s') := m s in k a s'.

Notation "x <- m ;; k" := (bind m (fun x => k))
  (at level 61, m at next level, right associativity).

(** [module_op.emitWarning(msg)], [module_op] being the root. *)
Definition emitWarning (msg : string) : PassM unit :=
  fun s =>
    (tt, {| root := root s;
            diagnostics :=
              (diagnostics s ++ [{| severity := Warning; message := msg |}])%list;
            pass_failed := pass_failed s |}).

(** [signalPassFailure()]. *)
Definition signalPassFailure : PassM unit :=
  fun s =>
    (tt, {| root := root s;
            diagnostics := diagnostics s;
            pass_failed := true |}).

(** The driver run on the root, which it rewrites in place. *)
Definition applyPatternsAndFoldGreedily_root (patterns : RewritePatternSet)
    : PassM LogicalResult :=
  fun s =>
    let (m, r) := applyPatternsAndFoldGreedily (root s) patterns in
    (r, {| root := m;
           diagnostics := diagnostics s;
           pass_failed := pass_failed s |}).

(** Lines 123-128: the [quant_params] handed to the pattern structs. *)
Definition runOnOperation_quant_params (self : QuantizePass) : QuantPassSpec :=
  let numeric_verify_spec :=
    {| nv_verify_numeric := verify_numeric (quant_specs_ self);
       nv_whole_model_verify := whole_model_verify (quant_specs_ self) |} in
  {| numeric_verify_spec := numeric_verify_spec;
     quant_spec := quant_specs_ self |}.

(** Lines 130-141: the local [patterns] when it reaches the driver. *)
Definition runOnOperation_patterns (self : QuantizePass) : RewritePatternSet :=
  let quant_params := runOnOperation_quant_params self in
  let patterns : RewritePatternSet := [] in
  let patterns :=
    add [StableHloQuantization; StableHloQuantizationReverse]
        quant_params patterns in
  let patterns :=
    if enable_weight_only_ self then
      PopulateQuantizeHybridPatterns
        (add [StableHloQuantizationHybrid] quant_params patterns)
    else patterns in
  let patterns := PopulateQuantizeOpWithRegionPattern patterns in
  let patterns :=
    PopulateFusedGemmStylePatterns
      patterns (enable_per_channel_quantized_weight_ self) in
  PopulateQuantizeSingularOpPatterns patterns.

(** Lines 119-149. *)
Definition runOnOperation (self : QuantizePass) : PassM unit :=
  r <- applyPatternsAndFoldGreedily_root (runOnOperation_patterns self) ;;
  if failed r then
    emitWarning "Failed to converge pattern at QuantizePass."
  else ret tt.

(** Lines 153-157. *)
Definition DefaultQuantizationSpecs : QuantizationSpecs :=
  let quant_specs := QuantizationSpecs_default in
  {| inference_type := DT_QINT8;
     verify_numeric := verify_numeric quant_specs;
     whole_model_verify := whole_model_verify quant_specs |}.

(** Whether a pattern set holds an instance of a pattern struct, whatever
    it was constructed with. *)
Definition registers (c : ConcreteT) (patterns : RewritePatternSet) : Prop :=
  exists quant_params : QuantPassSpec,
    In (QuantizationPattern c quant_params) patterns.

(** The five options of the configuration surface. *)
Definition options (self : QuantizePass)
    : DataType * bool * bool * bool * bool :=
  (inference_type (quant_specs_ self),
   verify_numeric (quant_specs_ self),
   whole_model_verify (quant_specs_ self),
   enable_per_channel_quantized_weight_ self,
   enable_weight_only_ self).

(** *** Properties *)

(** The handle [cast] yields on an operation of the class is never null. *)
Lemma cast_isa (T : OpClass) (op : Operation) :
  isa T op = true -> cast T op = Some {| state := Some op |}.
Proof.
  unfold cast. now intros ->.
Qed.

Lemma cast_not_isa (T : OpClass) (op : Operation) :
  isa T op = false -> cast T op = None.
Proof.
  unfold cast. now intros ->.
Qed.

Lemma cast_Some_inv (T : OpClass) (op : Operation) (o : Op T) :
  cast T op = Some o -> isa T op = true /\ o = {| state := Some op |}.
Proof.
  unfold cast. destruct (isa T op); [|discriminate].
  intros [= <-]. now split.
Qed.

(** C1: on an operation that is a [TF::XlaCallModuleOp], the hybrid
    struct's [AllowHybridQuantization] returns, and it returns [true] exactly
    when the entry function name of the operation contains ["dot_general"]
    as a substring; two such operations with the same entry function name
    get the same answer. *)
Theorem hybrid_allows_iff_entry_name_has_dot_general (op : Operation) :
  isa XlaCallModuleOp op = true ->
  let name := GetEntryFunctionName {| state := Some op |} in
  AllowHybridQuantization StableHloQuantizationHybrid op
    = Some (StringRef.contains name "dot_general")
  /\ (AllowHybridQuantization StableHloQuantizationHybrid op = Some true
      <-> StringRef.occurs_in "dot_general" name)
  /\ (forall op' : Operation,
        isa XlaCallModuleOp op' = true ->
        GetEntryFunctionName {| state := Some op' |} = name ->
        AllowHybridQuantization StableHloQuantizationHybrid op'
          = AllowHybridQuantization StableHloQuantizationHybrid op).
Proof.
  intros Hisa name.
  assert (E : forall o : Operation,
             isa XlaCallModuleOp o = true ->
             AllowHybridQuantization StableHloQuantizationHybrid o
               = Some (StringRef.contains
                         (GetEntryFunctionName {| state := Some o |})
                         "dot_general")).
  { intros o Ho. unfold AllowHybridQuantization,
      StableHloQuantizationHybrid_AllowHybridQuantization.
    rewrite (cast_isa _ _ Ho). reflexivity. }
  split; [exact (E op Hisa)|]. split.
  - rewrite (E op Hisa). fold name. rewrite <- StringRef.contains_iff.
    split; [now intros [= ->] | now intros ->].
  - intros op' Hisa' Hname. rewrite (E op Hisa), (E op' Hisa').
    fold name. now rewrite Hname.
Qed.

(** C2: [runOnOperation] appends the warning ["Failed to converge pattern at
    QuantizePass."] to the diagnostics of the module exactly when the greedy
    driver reports failure, and appends nothing otherwise; in both cases the
    module is the one the driver left and the failure flag of the pass is
    what it was before the run. *)
Theorem runOnOperation_warns_iff_not_converged
    (self : QuantizePass) (s : PassState) :
  let driven := applyPatternsAndFoldGreedily (root s) (runOnOperation_patterns self) in
  let s' := snd (runOnOperation self s) in
  let w := {| severity := Warning;
              message := "Failed to converge pattern at QuantizePass." |} in
  (In w (skipn (length (diagnostics s)) (diagnostics s'))
     <-> failed (snd driven) = true)
  /\ diagnostics s'
      = (diagnostics s ++ (if failed (snd driven) then [w] else []))%list
  /\ root s' = fst driven
  /\ pass_failed s' = pass_failed s.
Proof.
  unfold runOnOperation, bind, applyPatternsAndFoldGreedily_root.
  destruct (applyPatternsAndFoldGreedily (root s) (runOnOperation_patterns self))
    as [m r].
  assert (K : forall (A : Type) (l k : list A),
             skipn (length l) (l ++ k)%list = k).
  { intros A l k. induction l; simpl; auto. }
  destruct r; simpl.
  - rewrite <- (app_nil_r (diagnostics s)) at 2. rewrite K, app_nil_r.
    repeat split; try reflexivity; [intros [] | discriminate].
  - rewrite K. repeat split; try reflexivity. now left.
Qed.

(** The flag [pass_failed] is the one [signalPassFailure] raises. *)
Lemma signalPassFailure_raises (s : PassState) :
  pass_failed (snd (signalPassFailure s)) = true.
Proof. reflexivity. Qed.

(** The pattern set, entry by entry, for each value of the weight-only flag. *)
Lemma runOnOperation_patterns_weight_only (self : QuantizePass) :
  enable_weight_only_ self = true ->
  runOnOperation_patterns self
    = [ QuantizationPattern StableHloQuantization (runOnOperation_quant_params self);
        QuantizationPattern StableHloQuantizationReverse (runOnOperation_quant_params self);
        QuantizationPattern StableHloQuantizationHybrid (runOnOperation_quant_params self);
        QuantizeHybridPatterns;
        QuantizeOpWithRegionPattern;
        FusedGemmStylePatterns (enable_per_channel_quantized_weight_ self);
        QuantizeSingularOpPatterns ].
Proof.
  unfold runOnOperation_patterns. now intros ->.
Qed.

Lemma runOnOperation_patterns_not_weight_only (self : QuantizePass) :
  enable_weight_only_ self = false ->
  runOnOperation_patterns self
    = [ QuantizationPattern StableHloQuantization (runOnOperation_quant_params self);
        QuantizationPattern StableHloQuantizationReverse (runOnOperation_quant_params self);
        QuantizeOpWithRegionPattern;
        FusedGemmStylePatterns (enable_per_channel_quantized_weight_ self);
        QuantizeSingularOpPatterns ].
Proof.
  unfold runOnOperation_patterns. now intros ->.
Qed.

(** C3: whatever the configuration, the pattern set of [runOnOperation]
    holds [StableHloQuantization], whose root is the dequantize cast, and
    [StableHloQuantizationReverse], whose root is the quantize cast; it holds
    [StableHloQuantizationHybrid], and what [PopulateQuantizeHybridPatterns]
    adds, exactly when [enable_weight_only_] is true. *)
Theorem runOnOperation_registers_variants (self : QuantizePass) :
  let patterns := runOnOperation_patterns self in
  (registers StableHloQuantization patterns
     /\ RootOpT StableHloQuantization = DequantizeCastOp)
  /\ (registers StableHloQuantizationReverse patterns
       /\ RootOpT StableHloQuantizationReverse = QuantizeCastOp)
  /\ (registers StableHloQuantizationHybrid patterns
       <-> enable_weight_only_ self = true)
  /\ (In QuantizeHybridPatterns patterns
       <-> enable_weight_only_ self = true).
Proof.
  unfold registers. destruct (enable_weight_only_ self) eqn:E; simpl.
  - rewrite (runOnOperation_patterns_weight_only _ E).
    repeat split; try (exists (runOnOperation_quant_params self)); simpl; auto 10.
  - rewrite (runOnOperation_patterns_not_weight_only _ E).
    repeat split; try (exists (runOnOperation_quant_params self)); simpl; auto;
      try discriminate.
    + intros [q H]. simpl in H.
      repeat (destruct H as [H|H]; [discriminate H|]). destruct H.
    + intros H.
      repeat (destruct H as [H|H]; [discriminate H|]). destruct H.
Qed.

(** C4: the [QuantPassSpec] built by [runOnOperation] carries
    [verify_numeric] and [whole_model_verify] of [quant_specs_] unchanged in
    its [NumericVerifySpec], next to [quant_specs_] itself; every pattern
    struct in the pattern set was constructed with it; and two passes hand
    the same pattern set to the driver exactly when they agree on the
    inference type, the two numeric-verification flags, the per-channel flag
    and the weight-only flag. *)
Theorem runOnOperation_reads_options (self : QuantizePass) :
  let quant_params := runOnOperation_quant_params self in
  nv_verify_numeric (numeric_verify_spec quant_params)
    = verify_numeric (quant_specs_ self)
  /\ nv_whole_model_verify (numeric_verify_spec quant_params)
      = whole_model_verify (quant_specs_ self)
  /\ quant_spec quant_params = quant_specs_ self
  /\ (forall (c : ConcreteT) (q : QuantPassSpec),
        In (QuantizationPattern c q) (runOnOperation_patterns self) ->
        q = quant_params)
  /\ (forall other : QuantizePass,
        runOnOperation_patterns self = runOnOperation_patterns other
        <-> options self = options other).
Proof.
  simpl. repeat split; try reflexivity.
  - intros c q. unfold runOnOperation_patterns.
    destruct (enable_weight_only_ self); simpl; intros H;
      repeat (destruct H as [H|H]; [try discriminate H; now injection H|]);
      destruct H.
  - destruct self as [pc wo [it vn wm]], other as [pc' wo' [it' vn' wm']].
    unfold runOnOperation_patterns, runOnOperation_quant_params, options.
    simpl. destruct wo, wo'; simpl; intros H; try discriminate H;
      injection H; intros; subst; reflexivity.
  - destruct self as [pc wo [it vn wm]], other as [pc' wo' [it' vn' wm']].
    unfold options. simpl. intros [= -> -> -> -> ->]. reflexivity.
Qed.

(** C5: the hybrid struct's [AllowHybridQuantization] has a result exactly
    on the operations that are a [TF::XlaCallModuleOp]: on any other the
    assertion of [cast] is violated.  Whenever [cast] yields a handle the
    handle is not null, so the null test of line 95 never decides the result,
    which is the outcome of the name test alone. *)
Theorem hybrid_cast_precondition (op : Operation) :
  (StableHloQuantizationHybrid_AllowHybridQuantization op <> None
     <-> isa XlaCallModuleOp op = true)
  /\ (isa XlaCallModuleOp op = false -> cast XlaCallModuleOp op = None)
  /\ (forall call_op : Op XlaCallModuleOp,
        cast XlaCallModuleOp op = Some call_op ->
        Op_bool call_op = true
        /\ StableHloQuantizationHybrid_AllowHybridQuantization op
            = Some (StringRef.contains (GetEntryFunctionName call_op)
                                       "dot_general")).
Proof.
  unfold StableHloQuantizationHybrid_AllowHybridQuantization.
  split; [|split].
  - destruct (isa XlaCallModuleOp op) eqn:E.
    + rewrite (cast_isa _ _ E). split; [reflexivity | discriminate].
    + rewrite (cast_not_isa _ _ E). split; [now intros H | discriminate].
  - apply cast_not_isa.
  - intros call_op H. rewrite H.
    apply cast_Some_inv in H as [_ ->]. now split.
Qed.

(** C6: [DefaultQuantizationSpecs()] has [DT_QINT8] as its inference type
    and the default-constructed value in every other field: it is the
    default-constructed record with the inference type replaced. *)
Theorem DefaultQuantizationSpecs_is_default_with_qint8 :
  inference_type DefaultQuantizationSpecs = DT_QINT8
  /\ verify_numeric DefaultQuantizationSpecs
      = verify_numeric QuantizationSpecs_default
  /\ whole_model_verify DefaultQuantizationSpecs
      = whole_model_verify QuantizationSpecs_default
  /\ (forall q : QuantizationSpecs,
        q = DefaultQuantizationSpecs
        <-> inference_type q = DT_QINT8
            /\ verify_numeric q = verify_numeric QuantizationSpecs_default
            /\ whole_model_verify q
                = whole_model_verify QuantizationSpecs_default).
Proof.
  unfold DefaultQuantizationSpecs.
  destruct QuantizationSpecs_default as [it vn wm]. simpl.
  repeat split; try (subst q; reflexivity).
  destruct q as [it' vn' wm']. simpl. now intros (-> & -> & ->).
Qed.

(** C7: the base's [AllowHybridQuantization] is [false] on every operation,
    and so is that of [StableHloQuantization] and of
    [StableHloQuantizationReverse], which declare none of their own; the
    call returns on every operation. *)
Theorem full_and_reverse_never_allow_hybrid (op : Operation) :
  StableHloQuantizationBase_AllowHybridQuantization op = false
  /\ AllowHybridQuantization StableHloQuantization op = Some false
  /\ AllowHybridQuantization StableHloQuantizationReverse op = Some false
  /\ (forall c : ConcreteT,
        AllowHybridQuantization c op = Some true ->
        c = StableHloQuantizationHybrid).
Proof.
  repeat split. intros [| |]; simpl; [discriminate | discriminate | reflexivity].
Qed.

(** *** Further properties of the pattern structs and of the pass *)

(** On a call-module operation the hybrid struct answers with the name
    test. *)
Lemma hybrid_on_call_module (op : Operation) :
  isa XlaCallModuleOp op = true ->
  AllowHybridQuantization StableHloQuantizationHybrid op
    = Some (StringRef.contains (GetEntryFunctionName {| state := Some op |})
                               "dot_general").
Proof.
  intros H. simpl. unfold StableHloQuantizationHybrid_AllowHybridQuantization.
  now rewrite (cast_isa _ _ H).
Qed.

(** X1: The answers of [AllowHybridQuantization] over the three structs: it is
    [true] only for the hybrid struct on a call-module operation whose entry
    function name contains ["dot_general"], and the call is without a result
    only for the hybrid struct on an operation of another class. *)
Theorem AllowHybridQuantization_case_table (c : ConcreteT) (op : Operation) :
  (AllowHybridQuantization c op = Some true
     <-> c = StableHloQuantizationHybrid
         /\ isa XlaCallModuleOp op = true
         /\ StringRef.occurs_in "dot_general"
              (GetEntryFunctionName {| state := Some op |}))
  /\ (AllowHybridQuantization c op = None
       <-> c = StableHloQuantizationHybrid
           /\ isa XlaCallModuleOp op = false).
Proof.
  destruct c; simpl.
  1, 2: split; (split; [discriminate | now intros [H _]]).
  unfold StableHloQuantizationHybrid_AllowHybridQuantization.
  destruct (isa XlaCallModuleOp op) eqn:E.
  - rewrite (cast_isa _ _ E). simpl. rewrite <- StringRef.contains_iff. split.
    + split; [now intros [= ->] | now intros (_ & _ & ->)].
    + split; [discriminate | now intros [_ H]].
  - rewrite (cast_not_isa _ _ E). split.
    + split; [discriminate | now intros (_ & H & _)].
    + split; [now intros _ | reflexivity].
Qed.

(** X2: A call-module operation whose entry function name has fewer than the
    eleven characters of ["dot_general"] is refused by the hybrid struct. *)
Theorem hybrid_refuses_short_names (op : Operation) :
  isa XlaCallModuleOp op = true ->
  String.length (GetEntryFunctionName {| state := Some op |}) < 11 ->
  AllowHybridQuantization StableHloQuantizationHybrid op = Some false.
Proof.
  intros Hisa Hlen. simpl.
  unfold StableHloQuantizationHybrid_AllowHybridQuantization.
  rewrite (cast_isa _ _ Hisa). simpl.
  destruct (StringRef.contains _ "dot_general") eqn:E; [|reflexivity].
  apply StringRef.contains_length in E. simpl in E. lia.
Qed.

(** X3: The hybrid struct's answer survives any extension of the entry function
    name: if it allows a call-module operation, it allows every call-module
    operation whose entry function name has that name inside it. *)
Theorem hybrid_allows_extended_names
    (op op' : Operation) (before after : string) :
  isa XlaCallModuleOp op = true ->
  isa XlaCallModuleOp op' = true ->
  GetEntryFunctionName {| state := Some op' |}
    = before ++ GetEntryFunctionName {| state := Some op |} ++ after ->
  AllowHybridQuantization StableHloQuantizationHybrid op = Some true ->
  AllowHybridQuantization StableHloQuantizationHybrid op' = Some true.
Proof.
  intros Hisa Hisa' Hname.
  rewrite (hybrid_on_call_module _ Hisa), (hybrid_on_call_module _ Hisa').
  intros [= H]. f_equal. apply StringRef.contains_iff.
  rewrite Hname. apply StringRef.occurs_in_extend.
  now apply StringRef.contains_iff.
Qed.

(** X4: The constructor's first argument is the one that reaches
    [PopulateFusedGemmStylePatterns], its second is the one that gates the
    hybrid struct, and its third is the [quant_spec] of every pattern struct
    of the set. *)
Theorem QuantizePass_new_routes_arguments
    (enable_per_channel_quantized_weight enable_weight_only : bool)
    (quant_specs : QuantizationSpecs) :
  let patterns :=
    runOnOperation_patterns
      (QuantizePass_new enable_per_channel_quantized_weight
                        enable_weight_only quant_specs) in
  (forall b : bool,
     In (FusedGemmStylePatterns b) patterns
     <-> b = enable_per_channel_quantized_weight)
  /\ (registers StableHloQuantizationHybrid patterns
       <-> enable_weight_only = true)
  /\ (forall (c : ConcreteT) (q : QuantPassSpec),
        In (QuantizationPattern c q) patterns -> quant_spec q = quant_specs).
Proof.
  cbv zeta. unfold registers, runOnOperation_patterns, QuantizePass_new.
  split; [|split].
  - intros b. destruct enable_weight_only; simpl; (split;
      [ intros H; repeat (destruct H as [H|H]; [congruence|]); destruct H
      | intros ->; auto 10 ]).
  - destruct enable_weight_only; simpl; split.
    + reflexivity.
    + intros _. eexists. do 2 right. left. reflexivity.
    + intros [q H].
      repeat (destruct H as [H|H]; [discriminate H|]). destruct H.
    + discriminate.
  - intros c q H. destruct enable_weight_only; simpl in H;
      repeat (destruct H as [H|H];
              [try discriminate H; injection H as _ <-; reflexivity|]);
      destruct H.
Qed.

(** X5: Turning the weight-only flag on only adds to the pattern set: the set is
    the one without the flag, with the hybrid struct and the hybrid
    population put in after the first two entries, and in the same order
    otherwise. *)
Theorem weight_only_only_adds
    (enable_per_channel_quantized_weight : bool)
    (quant_specs : QuantizationSpecs) :
  let without :=
    runOnOperation_patterns
      (QuantizePass_new enable_per_channel_quantized_weight false quant_specs) in
  let self :=
    QuantizePass_new enable_per_channel_quantized_weight true quant_specs in
  runOnOperation_patterns self
    = (firstn 2 without
       ++ [ QuantizationPattern StableHloQuantizationHybrid
              (runOnOperation_quant_params self);
            QuantizeHybridPatterns ]
       ++ skipn 2 without)%list
  /\ incl without (runOnOperation_patterns self).
Proof.
  split; [reflexivity|].
  intros p H. simpl in H. simpl.
  repeat (destruct H as [H|H]; [subst p; auto 10|]). destruct H.
Qed.


(** X7: A pass constructed with [DefaultQuantizationSpecs()] hands every pattern
    struct the inference type [DT_QINT8] and the numeric-verification flags
    of the default-constructed record, whatever its two flags. *)
Theorem default_specs_pass_quantizes_to_qint8
    (enable_per_channel_quantized_weight enable_weight_only : bool) :
  let self :=
    QuantizePass_new enable_per_channel_quantized_weight enable_weight_only
                     DefaultQuantizationSpecs in
  Forall
    (fun p =>
       match p with
       | QuantizationPattern _ q =>
           inference_type (quant_spec q) = DT_QINT8
           /\ nv_verify_numeric (numeric_verify_spec q)
               = verify_numeric QuantizationSpecs_default
           /\ nv_whole_model_verify (numeric_verify_spec q)
               = whole_model_verify QuantizationSpecs_default
       | _ => True
       end)
    (runOnOperation_patterns self).
Proof.
  unfold runOnOperation_patterns.
  destruct enable_weight_only; simpl; repeat constructor.
Qed.

End Pass.

Arguments state {Operation T} _.

(** *** A small IR on which the definitions run

    An operation is given by its class and its entry function name. *)

Definition OpClass_eqb (a b : OpClass) : bool :=
  match a, b with
  | XlaCallModuleOp, XlaCallModuleOp
  | QuantizeCastOp, QuantizeCastOp
  | DequantizeCastOp, DequantizeCastOp => true
  | _, _ => false
  end.

Definition sample_Operation : Type := (OpClass * string)%type.

Definition sample_isa (T : OpClass) (op : sample_Operation) : bool :=
  OpClass_eqb T (fst op).

Definition sample_GetEntryFunctionName
    (call_op : Op sample_Operation XlaCallModuleOp) : string :=
  match state call_op with
  | Some op => snd op
  | None => ""
  end.

Definition sample_AllowHybridQuantization
    : ConcreteT -> sample_Operation -> option bool :=
  AllowHybridQuantization sample_Operation sample_isa
    sample_GetEntryFunctionName.

Example sample_dot_general :
  sample_AllowHybridQuantization StableHloQuantizationHybrid
    (XlaCallModuleOp, "composite_dot_general_fn_1") = Some true.
Proof. reflexivity. Qed.

Example sample_conv :
  sample_AllowHybridQuantization StableHloQuantizationHybrid
    (XlaCallModuleOp, "composite_conv_fn_1") = Some false.
Proof. reflexivity. Qed.

Example sample_not_a_call_module :
  sample_AllowHybridQuantization StableHloQuantizationHybrid
    (QuantizeCastOp, "composite_dot_general_fn_1") = None.
Proof. reflexivity. Qed.

Example sample_full_on_dot_general :
  sample_AllowHybridQuantization StableHloQuantization
    (XlaCallModuleOp, "composite_dot_general_fn_1") = Some false.
Proof. reflexivity. Qed.

(** Two drivers on a module that is the number of rewrites done so far:
    one converges after a rewrite per pattern, one never does. *)
Definition sample_converging (m : nat)
    (patterns : RewritePatternSet bool) : nat * LogicalResult :=
  (m + length patterns, success).

Definition sample_diverging (m : nat)
    (patterns : RewritePatternSet bool) : nat * LogicalResult :=
  (m, failure).

Definition sample_pass : QuantizePass bool :=
  QuantizePass_new bool true true
    {| inference_type := true; verify_numeric := true;
       whole_model_verify := false |}.

Definition sample_state : PassState nat :=
  {| root := 0; diagnostics := []; pass_failed := false |}.

Example sample_run_converging :
  runOnOperation nat bool sample_converging sample_pass sample_state
  = (tt, {| root := 7; diagnostics := []; pass_failed := false |}).
Proof. reflexivity. Qed.

Example sample_run_diverging :
  runOnOperation nat bool sample_diverging sample_pass sample_state
  = (tt, {| root := 0;
            diagnostics :=
              [ {| severity := Warning;
                   message := "Failed to converge pattern at QuantizePass." |} ];
            pass_failed := false |}).
Proof. reflexivity. Qed.

(** A call-module operation of the sample IR meets the precondition of the
    hybrid struct's test, whose characterisation then applies to it. *)
Lemma hybrid_allows_sample :
  sample_isa XlaCallModuleOp (XlaCallModuleOp, "composite_dot_general_fn_1")
    = true
  /\ (sample_AllowHybridQuantization StableHloQuantizationHybrid
        (XlaCallModuleOp, "composite_dot_general_fn_1") = Some true
      <-> StringRef.occurs_in "dot_general" "composite_dot_general_fn_1").
Proof.
  split; [reflexivity|].
  exact (proj1 (proj2
    (hybrid_allows_iff_entry_name_has_dot_general
       sample_Operation sample_isa sample_GetEntryFunctionName
       (XlaCallModuleOp, "composite_dot_general_fn_1") eq_refl))).
Defined.

(** A call-module operation of the sample IR with the entry function name
    ["main"] meets the two preconditions of the refusal of short names. *)
Lemma hybrid_refuses_short_names_sample :
  sample_isa XlaCallModuleOp (XlaCallModuleOp, "main") = true
  /\ String.length
       (sample_GetEntryFunctionName
          {| state := Some (XlaCallModuleOp, "main") |}) < 11
  /\ sample_AllowHybridQuantization StableHloQuantizationHybrid
       (XlaCallModuleOp, "main") = Some false.
Proof.
  split; [reflexivity|]. split; [simpl; lia|].
  apply (hybrid_refuses_short_names
           sample_Operation sample_isa sample_GetEntryFunctionName
           (XlaCallModuleOp, "main")); [reflexivity | simpl; lia].
Defined.

(** ["composite_dot_general_fn_1"] extends ["dot_general"] on both sides. *)
Lemma hybrid_allows_extended_names_sample :
  sample_AllowHybridQuantization StableHloQuantizationHybrid
    (XlaCallModuleOp, "dot_general") = Some true
  /\ sample_AllowHybridQuantization StableHloQuantizationHybrid
       (XlaCallModuleOp, "composite_dot_general_fn_1") = Some true.
Proof.
  split; [reflexivity|].
  apply (hybrid_allows_extended_names
           sample_Operation sample_isa sample_GetEntryFunctionName
           (XlaCallModuleOp, "dot_general")
           (XlaCallModuleOp, "composite_dot_general_fn_1")
           "composite_" "_fn_1"); reflexivity.
Defined.

End Quantize.

(** ** [xla/service/gpu/fusions/mlir/ir/BUILD] *)

Module Build.

(** The value of a keyword argument of a rule invocation. *)
Inductive Value : Type :=
| Str (s : string)
| StrList (l : list string)
| Glob (patterns : list string)
| TblOuts (outs : list (list string * string)).

(** A rule invocation: the rule called and its keyword arguments, in the
    order of the file. *)
Record Rule : Type := {
  kind : string;
  attrs : list (string * Value)
}.

(** Line 1: the rules loaded from [@llvm-project//mlir:tblgen.bzl]. *)
Definition loads : list (string * list string) :=
  [ ("@llvm-project//mlir:tblgen.bzl", ["gentbl_cc_library"; "td_library"]) ].

(** Lines 3-108. *)
Definition BUILD : list Rule :=
  [ {| kind := "package";
       attrs :=
         [ ("default_visibility", StrList [":friends"]);
           ("licenses", StrList ["notice"]) ] |};
    {| kind := "package_group";
       attrs :=
         [ ("name", Str "friends");
           ("includes", StrList ["//xla:friends"]) ] |};
    {| kind := "td_library";
       attrs :=
         [ ("name", Str "xla_gpu_td_files");
           ("srcs", Glob ["*.td"]);
           ("includes", StrList ["."]);
           ("deps",
            StrList
              [ "@llvm-project//mlir:CallInterfacesTdFiles";
                "@llvm-project//mlir:InferTypeOpInterfaceTdFiles";
                "@llvm-project//mlir:OpBaseTdFiles";
                "@llvm-project//mlir:SideEffectInterfacesTdFiles" ]) ] |};
    {| kind := "gentbl_cc_library";
       attrs :=
         [ ("name", Str "xla_gpu_dialect_inc_gen");
           ("strip_include_prefix", Str ".");
           ("tbl_outs",
            TblOuts
              [ (["-gen-dialect-decls"], "xla_gpu_dialect.h.inc");
                (["-gen-dialect-defs"], "xla_gpu_dialect.cc.inc") ]);
           ("tblgen", Str "@llvm-project//mlir:mlir-tblgen");
           ("td_file", Str "xla_gpu_dialect.td");
           ("deps", StrList [":xla_gpu_td_files"]) ] |};
    {| kind := "gentbl_cc_library";
       attrs :=
         [ ("name", Str "xla_gpu_ops_inc_gen");
           ("strip_include_prefix", Str ".");
           ("tbl_outs",
            TblOuts
              [ (["-gen-op-decls"], "xla_gpu_ops.h.inc");
                (["-gen-op-defs"], "xla_gpu_ops.cc.inc") ]);
           ("tblgen", Str "@llvm-project//mlir:mlir-tblgen");
           ("td_file", Str "xla_gpu_ops.td");
           ("deps", StrList [":xla_gpu_td_files"]) ] |};
    {| kind := "gentbl_cc_library";
       attrs :=
         [ ("name", Str "xla_gpu_attrs_inc_gen");
           ("strip_include_prefix", Str ".");
           ("tbl_outs",
            TblOuts
              [ (["-gen-attrdef-decls"], "xla_gpu_attrs.h.inc");
                (["-gen-attrdef-defs"], "xla_gpu_attrs.cc.inc") ]);
           ("tblgen", Str "@llvm-project//mlir:mlir-tblgen");
           ("td_file", Str "xla_gpu_attrs.td");
           ("deps", StrList [":xla_gpu_td_files"]) ] |};
    {| kind := "cc_library";
       attrs :=
         [ ("name", Str "xla_gpu");
           ("srcs", StrList ["xla_gpu_attrs.cc"; "xla_gpu_ops.cc"]);
           ("hdrs", StrList ["xla_gpu_attrs.h"; "xla_gpu_ops.h"]);
           ("deps",
            StrList
              [ ":xla_gpu_attrs_inc_gen";
                ":xla_gpu_dialect_inc_gen";
                ":xla_gpu_ops_inc_gen";
                "//xla/service/gpu/model:indexing_analysis";
                "@llvm-project//llvm:Support";
                "@llvm-project//mlir:ArithDialect";
                "@llvm-project//mlir:BytecodeOpInterface";
                "@llvm-project//mlir:CallOpInterfaces";
                "@llvm-project//mlir:FuncDialect";
                "@llvm-project//mlir:IR";
                "@llvm-project//mlir:InferTypeOpInterface";
                "@llvm-project//mlir:InliningUtils";
                "@llvm-project//mlir:SideEffectInterfaces";
                "@llvm-project//mlir:Support" ]) ] |} ].

(** The value of a keyword argument, when the invocation gives one. *)
Fixpoint assoc (key : string) (l : list (string * Value)) : option Value :=
  match l with
  | [] => None
  | (k, v) :: l' => if String.eqb k key then Some v else assoc key l'
  end.

Definition attr (r : Rule) (key : string) : option Value :=
  assoc key (attrs r).

Definition name (r : Rule) : option string :=
  match attr r "name" with
  | Some (Str n) => Some n
  | _ => None
  end.

Definition deps (r : Rule) : list string :=
  match attr r "deps" with
  | Some (StrList l) => l
  | _ => []
  end.

(** The files a [gentbl_cc_library] generates. *)
Definition tbl_outs (r : Rule) : list string :=
  match attr r "tbl_outs" with
  | Some (TblOuts outs) => map snd outs
  | _ => []
  end.

(** The target a name declares in a file. *)
Definition target (file : list Rule) (n : string) : option Rule :=
  List.find
    (fun r => match name r with
              | Some m => String.eqb m n
              | None => false
              end)
    file.

(** A label [":n"] names the target [n] of the package of the file; a label
    of any other form names a target of another package. *)
Definition local_label (label : string) : option string :=
  match label with
  | String ":" n => Some n
  | _ => None
  end.

(** The target [t] of the file lists the target [d] of the same package
    among its [deps]. *)
Definition depends_on (file : list Rule) (t d : string) : bool :=
  match target file t with
  | Some r =>
      existsb
        (fun label => match local_label label with
                      | Some n => String.eqb n d
                      | None => false
                      end)
        (deps r)
  | None => false
  end.

(** The names of the targets a rule declares in a file. *)
Definition targets_of_kind (file : list Rule) (k : string) : list string :=
  flat_map
    (fun r => if String.eqb (kind r) k
              then match name r with Some n => [n] | None => [] end
              else [])
    file.

Definition kind_of (file : list Rule) (n : string) : option string :=
  option_map kind (target file n).

(** The second BUILD file of the sources, printed after [quantize.cc]
    (lines 160-197 there): the rules it loads and its rule invocations. *)
Definition loads_utils : list (string * list string) :=
  [ ("//tensorflow:tensorflow.bzl", ["tf_cc_test"]);
    ("//tensorflow/core/platform:rules_cc.bzl", ["cc_library"]) ].

Definition BUILD_utils : list Rule :=
  [ {| kind := "package";
       attrs :=
         [ ("default_visibility", StrList ["//visibility:public"]);
           ("licenses", StrList ["notice"]) ] |};
    {| kind := "cc_library";
       attrs :=
         [ ("name", Str "portable_tensor_utils");
           ("srcs", StrList ["portable_tensor_utils.cc"]);
           ("hdrs", StrList ["portable_tensor_utils.h"]) ] |};
    {| kind := "cc_library";
       attrs :=
         [ ("name", Str "model_utils");
           ("srcs", StrList ["model_utils.cc"]);
           ("hdrs", StrList ["model_utils.h"]);
           ("deps",
            StrList
              [ "//tensorflow/compiler/mlir/lite/schema:schema_conversion_utils";
                "//tensorflow/compiler/mlir/lite/schema:schema_fbs";
                "//tensorflow/compiler/mlir/lite/schema:schema_utils";
                "@com_google_absl//absl/strings" ]) ] |};
    {| kind := "tf_cc_test";
       attrs :=
         [ ("name", Str "model_utils_test");
           ("srcs", StrList ["model_utils_test.cc"]);
           ("deps",
            StrList
              [ ":model_utils";
                "//tensorflow/compiler/mlir/lite/schema:schema_fbs";
                "@com_google_googletest//:gtest_main" ]) ] |} ].

Definition srcs (r : Rule) : list string :=
  match attr r "srcs" with
  | Some (StrList l) => l
  | _ => []
  end.

Definition hdrs (r : Rule) : list string :=
  match attr r "hdrs" with
  | Some (StrList l) => l
  | _ => []
  end.

Definition td_file (r : Rule) : option string :=
  match attr r "td_file" with
  | Some (Str f) => Some f
  | _ => None
  end.

(** The rule declares the target [n]. *)
Definition has_name (r : Rule) (n : string) : bool :=
  match name r with
  | Some m => String.eqb m n
  | None => false
  end.

(** The names a file declares, in its order. *)
Definition names (file : list Rule) : list string :=
  flat_map (fun r => match name r with Some n => [n] | None => [] end) file.

(** The targets of the package among the [deps] of a rule. *)
Definition local_deps (r : Rule) : list string :=
  flat_map
    (fun label => match local_label label with Some n => [n] | None => [] end)
    (deps r).

(** The dependency edges between targets of the package. *)
Definition edges (file : list Rule) : list (string * string) :=
  flat_map
    (fun r => match name r with
              | Some n => map (pair n) (local_deps r)
              | None => []
              end)
    file.

(** Every rule lists, of its package, only targets declared above it;
    [earlier] holds the names declared so far. *)
Fixpoint declared_before (earlier : list string) (file : list Rule) : bool :=
  match file with
  | [] => true
  | r :: rest =>
      forallb (fun d => existsb (String.eqb d) earlier) (local_deps r)
      && declared_before
           (match name r with Some n => n :: earlier | None => earlier end)
           rest
  end.

(** The position of the rule that declares [n], the length of the file when
    there is none. *)
Fixpoint rank (file : list Rule) (n : string) : nat :=
  match file with
  | [] => 0
  | r :: rest => if has_name r n then 0 else S (rank rest n)
  end.

(** [t] depends on [d] through one or more [deps] edges of the package. *)
Inductive reaches (file : list Rule) : string -> string -> Prop :=
| reaches_step (t d : string) :
    depends_on file t d = true -> reaches file t d
| reaches_trans (t m d : string) :
    depends_on file t m = true -> reaches file m d -> reaches file t d.

(** The labels of [default_visibility] in the [package] invocation. *)
Definition default_visibility (file : list Rule) : list string :=
  flat_map
    (fun r => if String.eqb (kind r) "package"
              then match attr r "default_visibility" with
                   | Some (StrList l) => l
                   | _ => []
                   end
              else [])
    file.

(** The files the [gentbl_cc_library] rules of a file generate. *)
Definition generated (file : list Rule) : list string :=
  flat_map tbl_outs file.

(** [local_label] recognises the labels that start with a colon. *)
Lemma local_label_iff (label n : string) :
  local_label label = Some n <-> label = String ":" n.
Proof.
  unfold local_label. split.
  - destruct label as [|a rest]; [discriminate|].
    destruct (Ascii.ascii_dec a ":") as [->|Ha].
    + now intros [= ->].
    + destruct a as [[] [] [] [] [] [] [] []]; try discriminate.
      now contradiction Ha.
  - now intros ->.
Qed.

(** [depends_on] holds when the target exists and the label of [d] is one
    of its [deps]. *)
Lemma depends_on_iff (file : list Rule) (t d : string) :
  depends_on file t d = true
  <-> exists r : Rule, target file t = Some r /\ In (String ":" d) (deps r).
Proof.
  unfold depends_on. destruct (target file t) as [r|].
  - rewrite existsb_exists. split.
    + intros (label & Hin & H).
      destruct (local_label label) as [n|] eqn:E; [|discriminate].
      apply String.eqb_eq in H as ->. apply local_label_iff in E as ->.
      now exists r.
    + intros (r' & [= <-] & Hin). exists (String ":" d).
      split; [exact Hin|]. simpl. apply String.eqb_refl.
  - split; [discriminate | now intros (r & H & _)].
Qed.

(** C8: the [cc_library] [xla_gpu] lists among its [deps] each of the three
    [gentbl_cc_library] targets of the file, [xla_gpu_dialect_inc_gen],
    [xla_gpu_ops_inc_gen] and [xla_gpu_attrs_inc_gen], which generate the
    [.h.inc] and [.cc.inc] files of the dialect, the ops and the attributes;
    each of the three lists the [td_library] [xla_gpu_td_files] among its
    [deps]. *)
Theorem xla_gpu_depends_on_generated_targets :
  kind_of BUILD "xla_gpu" = Some "cc_library"
  /\ kind_of BUILD "xla_gpu_td_files" = Some "td_library"
  /\ targets_of_kind BUILD "gentbl_cc_library"
     = ["xla_gpu_dialect_inc_gen"; "xla_gpu_ops_inc_gen";
        "xla_gpu_attrs_inc_gen"]
  /\ Forall
       (fun g =>
          depends_on BUILD "xla_gpu" g = true
          /\ depends_on BUILD g "xla_gpu_td_files" = true)
       (targets_of_kind BUILD "gentbl_cc_library")
  /\ map (fun g => option_map tbl_outs (target BUILD g))
         (targets_of_kind BUILD "gentbl_cc_library")
     = [ Some ["xla_gpu_dialect.h.inc"; "xla_gpu_dialect.cc.inc"];
         Some ["xla_gpu_ops.h.inc"; "xla_gpu_ops.cc.inc"];
         Some ["xla_gpu_attrs.h.inc"; "xla_gpu_attrs.cc.inc"] ].
Proof.
  repeat split; try reflexivity.
  repeat constructor.
Qed.

(** *** Declaration order and the dependency graph of a package *)

Lemma target_has_name (file : list Rule) (n : string) (r : Rule) :
  target file n = Some r -> In r file /\ name r = Some n.
Proof.
  unfold target. intros H. apply find_some in H as [Hin H].
  split; [exact Hin|].
  destruct (name r) as [m|]; [|discriminate].
  now apply String.eqb_eq in H as ->.
Qed.

Lemma target_rank (file : list Rule) (n : string) (r : Rule) :
  target file n = Some r -> nth_error file (rank file n) = Some r.
Proof.
  unfold target. induction file as [|r0 rest IH]; simpl; [discriminate|].
  fold (has_name r0 n). destruct (has_name r0 n); [now intros [= ->]|].
  exact IH.
Qed.

Lemma rank_target (file : list Rule) (n : string) :
  rank file n < length file -> exists r : Rule, target file n = Some r.
Proof.
  unfold target. induction file as [|r0 rest IH]; simpl; [lia|].
  fold (has_name r0 n). destruct (has_name r0 n); [now exists r0|].
  intros H. apply IH. lia.
Qed.

Lemma depends_on_local_deps (file : list Rule) (t d : string) :
  depends_on file t d = true
  <-> exists r : Rule, target file t = Some r /\ In d (local_deps r).
Proof.
  rewrite depends_on_iff. unfold local_deps.
  split; intros (r & Hr & H); exists r; (split; [exact Hr|]).
  - apply in_flat_map. exists (String ":" d). split; [exact H | now left].
  - apply in_flat_map in H as (label & Hin & H).
    destruct (local_label label) as [n|] eqn:E; [|destruct H].
    destruct H as [->|[]]. now apply local_label_iff in E as ->.
Qed.

(** In a file in declaration order, a rule lists only targets declared by
    rules above it or known before. *)
Lemma declared_before_rank (file : list Rule) :
  forall (earlier : list string) (i : nat) (r : Rule) (d : string),
    declared_before earlier file = true ->
    nth_error file i = Some r ->
    In d (local_deps r) ->
    In d earlier \/ rank file d < i.
Proof.
  induction file as [|r0 rest IH]; intros earlier i r d H Hi Hd.
  - now destruct i.
  - simpl in H. apply andb_true_iff in H as [H0 H].
    destruct i as [|i]; simpl in Hi.
    + injection Hi as ->. left.
      rewrite forallb_forall in H0. specialize (H0 d Hd).
      apply existsb_exists in H0 as (x & Hx & E).
      now apply String.eqb_eq in E as ->.
    + simpl. destruct (has_name r0 d) eqn:E; [right; lia|].
      destruct (IH _ _ _ _ H Hi Hd) as [Hin|Hlt]; [|right; lia].
      unfold has_name in E. destruct (name r0) as [n|]; [|now left].
      destruct Hin as [->|Hin]; [|now left].
      now rewrite String.eqb_refl in E.
Qed.

(** In a file in declaration order, a dependency of the package points to a
    target declared above. *)
Lemma depends_on_rank (file : list Rule) (t d : string) :
  declared_before [] file = true ->
  depends_on file t d = true ->
  rank file d < rank file t < length file.
Proof.
  intros H Hdep. apply depends_on_local_deps in Hdep as (r & Hr & Hd).
  apply target_rank in Hr.
  destruct (declared_before_rank _ _ _ _ _ H Hr Hd) as [[]|Hlt].
  split; [exact Hlt|]. apply nth_error_Some. now rewrite Hr.
Qed.

Lemma reaches_rank (file : list Rule) (t d : string) :
  declared_before [] file = true ->
  reaches file t d ->
  rank file d < rank file t.
Proof.
  intros H. induction 1 as [t d Hdep | t m d Hdep _ IH].
  - now apply depends_on_rank.
  - apply (depends_on_rank _ _ _ H) in Hdep. lia.
Qed.

(** A file in declaration order has no dangling label of its package among
    its [deps], and no target that depends on itself through them. *)
Lemma declared_before_sound (file : list Rule) :
  declared_before [] file = true ->
  (forall t d : string,
     depends_on file t d = true -> exists r : Rule, target file d = Some r)
  /\ (forall t : string, ~ reaches file t t).
Proof.
  intros H. split.
  - intros t d Hdep. apply rank_target.
    apply (depends_on_rank _ _ _ H) in Hdep. lia.
  - intros t Ht. apply (reaches_rank _ _ _ H) in Ht. lia.
Qed.

Lemma depends_on_edges (file : list Rule) (t d : string) :
  depends_on file t d = true -> In (t, d) (edges file).
Proof.
  intros H. apply depends_on_local_deps in H as (r & Hr & Hd).
  apply target_has_name in Hr as [Hin Hn].
  unfold edges. apply in_flat_map. exists r. split; [exact Hin|].
  rewrite Hn. now apply in_map.
Qed.

Ltac edge_cases :=
  simpl in *;
  repeat match goal with
         | H : _ \/ _ |- _ => destruct H as [H|H]
         | H : False |- _ => destruct H
         | H : (_, _) = (_, _) |- _ => inversion H; clear H
         end;
  subst; try discriminate; simpl; auto 20.

(** The dependency paths of [BUILD], in full. *)
Lemma reaches_BUILD (t d : string) :
  reaches BUILD t d ->
  In (t, d)
     [ ("xla_gpu_dialect_inc_gen", "xla_gpu_td_files");
       ("xla_gpu_ops_inc_gen", "xla_gpu_td_files");
       ("xla_gpu_attrs_inc_gen", "xla_gpu_td_files");
       ("xla_gpu", "xla_gpu_attrs_inc_gen");
       ("xla_gpu", "xla_gpu_dialect_inc_gen");
       ("xla_gpu", "xla_gpu_ops_inc_gen");
       ("xla_gpu", "xla_gpu_td_files") ].
Proof.
  induction 1 as [t d Hdep | t m d Hdep _ IH].
  - apply depends_on_edges in Hdep. edge_cases.
  - apply depends_on_edges in Hdep. edge_cases.
Qed.

(** X8: The targets of [BUILD] have distinct names and are in declaration order:
    each lists, of its package, only targets declared above it.  So every
    label of the package among the [deps] names a target of the file, as
    does the label in [default_visibility], and no target depends on itself
    through any chain of [deps]. *)
Theorem BUILD_well_formed :
  NoDup (names BUILD)
  /\ declared_before [] BUILD = true
  /\ (forall t d : string,
        depends_on BUILD t d = true -> exists r : Rule, target BUILD d = Some r)
  /\ (forall t : string, ~ reaches BUILD t t)
  /\ Forall
       (fun label =>
          exists n : string,
            local_label label = Some n
            /\ kind_of BUILD n = Some "package_group")
       (default_visibility BUILD)
  /\ default_visibility BUILD = [":friends"].
Proof.
  assert (H : declared_before [] BUILD = true) by reflexivity.
  destruct (declared_before_sound BUILD H) as [H1 H2].
  split; [|split; [exact H|split; [exact H1|split; [exact H2|split]]]].
  - repeat (constructor; [simpl; intuition discriminate|]). constructor.
  - constructor; [|constructor]. now exists "friends".
  - reflexivity.
Qed.

(** X9: What [xla_gpu] depends on, directly or not, within its package: the
    three generated targets and [xla_gpu_td_files], and nothing else;
    [xla_gpu_td_files] depends on no target of the package. *)
Theorem xla_gpu_dependency_closure (d : string) :
  (reaches BUILD "xla_gpu" d
     <-> In d [ "xla_gpu_attrs_inc_gen"; "xla_gpu_dialect_inc_gen";
                "xla_gpu_ops_inc_gen"; "xla_gpu_td_files" ])
  /\ ~ reaches BUILD "xla_gpu_td_files" d.
Proof.
  split; [split|].
  - intros H. apply reaches_BUILD in H. edge_cases.
  - intros H. simpl in H.
    destruct H as [<-|[<-|[<-|[<-|[]]]]];
      try (now apply reaches_step).
    apply reaches_trans with (m := "xla_gpu_ops_inc_gen");
      [reflexivity | now apply reaches_step].
  - intros H. apply reaches_BUILD in H. edge_cases.
Qed.

(** X10: Each [gentbl_cc_library] of [BUILD] is named after its [td_file]: from
    [stem.td] the target [stem_inc_gen] generates [stem.h.inc] and
    [stem.cc.inc].  No file is generated twice, and every source and header
    of [xla_gpu] has its [.inc] file generated by a target that [xla_gpu]
    lists among its [deps]. *)
Theorem generated_files_match_sources :
  Forall
    (fun r =>
       kind r = "gentbl_cc_library" ->
       exists stem : string,
         td_file r = Some (stem ++ ".td")
         /\ name r = Some (stem ++ "_inc_gen")
         /\ tbl_outs r = [stem ++ ".h.inc"; stem ++ ".cc.inc"])
    BUILD
  /\ NoDup (generated BUILD)
  /\ option_map (fun r => srcs r ++ hdrs r)%list (target BUILD "xla_gpu")
     = Some ["xla_gpu_attrs.cc"; "xla_gpu_ops.cc";
             "xla_gpu_attrs.h"; "xla_gpu_ops.h"]
  /\ Forall
       (fun f =>
          exists (g : string) (r : Rule),
            depends_on BUILD "xla_gpu" g = true
            /\ target BUILD g = Some r
            /\ In (f ++ ".inc") (tbl_outs r))
       ["xla_gpu_attrs.cc"; "xla_gpu_ops.cc";
        "xla_gpu_attrs.h"; "xla_gpu_ops.h"].
Proof.
  split; [|split; [|split; [reflexivity|]]].
  - repeat (constructor;
            [cbv beta; intros H;
             first [ discriminate H
                   | exists "xla_gpu_dialect"; now repeat split
                   | exists "xla_gpu_ops"; now repeat split
                   | exists "xla_gpu_attrs"; now repeat split ]|]).
    constructor.
  - repeat (constructor; [simpl; intuition discriminate|]). constructor.
  - assert (K : forall (f g : string) (r : Rule),
               depends_on BUILD "xla_gpu" g = true ->
               target BUILD g = Some r ->
               In (f ++ ".inc") (tbl_outs r) ->
               exists (g : string) (r : Rule),
                 depends_on BUILD "xla_gpu" g = true
                 /\ target BUILD g = Some r
                 /\ In (f ++ ".inc") (tbl_outs r))
      by (intros f g r; now exists g, r).
    constructor; [|constructor; [|constructor; [|constructor; [|constructor]]]].
    + eapply (K _ "xla_gpu_attrs_inc_gen");
        [reflexivity | reflexivity | simpl; auto].
    + eapply (K _ "xla_gpu_ops_inc_gen");
        [reflexivity | reflexivity | simpl; auto].
    + eapply (K _ "xla_gpu_attrs_inc_gen");
        [reflexivity | reflexivity | simpl; auto].
    + eapply (K _ "xla_gpu_ops_inc_gen");
        [reflexivity | reflexivity | simpl; auto].
Qed.

(** X11: The targets of [BUILD_utils] have distinct names and are in declaration
    order; the one dependency inside the package, direct or not, is that of
    the test [model_utils_test] on the library [model_utils], so no target
    depends on itself and [portable_tensor_utils] stands alone. *)
Theorem BUILD_utils_well_formed :
  NoDup (names BUILD_utils)
  /\ declared_before [] BUILD_utils = true
  /\ (forall t : string, ~ reaches BUILD_utils t t)
  /\ (forall t d : string,
        reaches BUILD_utils t d
        <-> t = "model_utils_test" /\ d = "model_utils")
  /\ kind_of BUILD_utils "model_utils_test" = Some "tf_cc_test"
  /\ kind_of BUILD_utils "model_utils" = Some "cc_library".
Proof.
  assert (H : declared_before [] BUILD_utils = true) by reflexivity.
  destruct (declared_before_sound BUILD_utils H) as [_ H2].
  split; [|split; [exact H|split; [exact H2|split; [|now split]]]].
  - repeat (constructor; [simpl; intuition discriminate|]). constructor.
  - intros t d. split.
    + induction 1 as [t d Hdep | t m d Hdep _ IH];
        apply depends_on_edges in Hdep.
      * edge_cases.
      * destruct IH as [-> ->]. edge_cases.
    + intros [-> ->]. now apply reaches_step.
Qed.

End Build.
